(** * Gas metering of EVM assembly items (libevmasm/GasMeter.h)

    A shallow embedding of the cost table [GasCosts], of the cost value
    [GasMeter::GasConsumption] and of the estimator [GasMeter], followed by
    the properties established about them.

    Conventions.  A [u256] is a [Z] in the range [0, 2^256); an [unsigned] is a
    [Z] in the range [0, 2^32).  Conversions into these types are written out
    as reductions modulo the size of the type.  Member functions that mutate
    their object take the object and return its new value. *)

From Stdlib Require Import ZArith List Bool Lia.
Import ListNotations.
Local Open Scope Z_scope.

(** ** Machine integers *)

Module U256.
Definition modulus : Z := 2 ^ 256.
(** [numeric_limits<u256>::max()] *)
Definition max : Z := modulus - 1.
Definition in_range (z : Z) : Prop := 0 <= z < modulus.
Definition of_Z (z : Z) : Z := z mod modulus.
End U256.

Module Unsigned.
Definition modulus : Z := 2 ^ 32.
Definition in_range (z : Z) : Prop := 0 <= z < modulus.
Definition of_Z (z : Z) : Z := z mod modulus.
End Unsigned.

(** ** Protocol versions *)

(** Modelled from the spec: the type [EVMVersion] of
    libsolidity/interface/EVMVersion.h, which the header includes and only
    uses through [operator>=] against named milestones.  The spec describes it
    as an immutable, totally ordered value identifying a point in the upgrade
    history; a version is represented by its position in that history. *)
Record EVMVersion : Type := mkEVMVersion { m_version : nat }.

Definition EVMVersion_ge (a b : EVMVersion) : bool :=
  (m_version b <=? m_version a)%nat.

Definition EVMVersion_lt (a b : EVMVersion) : Prop :=
  (m_version a < m_version b)%nat.

(** The two milestones the header names, [EVMVersion::tangerineWhistle()] and
    [EVMVersion::spuriousDragon()].  Their positions are data of the missing
    header. *)
Class Milestones : Type := {
  tangerineWhistle : EVMVersion;
  spuriousDragon : EVMVersion
}.

(** ** namespace GasCosts *)

Module GasCosts.
Definition stackLimit : Z := 1024.
Definition tier0Gas : Z := 0.
Definition tier1Gas : Z := 1.
Definition tier2Gas : Z := 1.
Definition tier3Gas : Z := 2.
Definition tier4Gas : Z := 3.
Definition tier5Gas : Z := 4.
Definition tier6Gas : Z := 7.
Definition tier7Gas : Z := 0.

Section Versioned.
Context {M : Milestones}.

Definition extCodeGas (_evmVersion : EVMVersion) : Z :=
  if EVMVersion_ge _evmVersion tangerineWhistle then 45 else 20.

Definition balanceGas (_evmVersion : EVMVersion) : Z :=
  if EVMVersion_ge _evmVersion tangerineWhistle then 25 else 20.

Definition expByteGas (_evmVersion : EVMVersion) : Z :=
  if EVMVersion_ge _evmVersion spuriousDragon then 4 else 10.

Definition sloadGas (_evmVersion : EVMVersion) : Z :=
  if EVMVersion_ge _evmVersion tangerineWhistle then 20 else 50.

Definition callGas (_evmVersion : EVMVersion) : Z :=
  if EVMVersion_ge _evmVersion tangerineWhistle then 45 else 40.

Definition selfdestructGas (_evmVersion : EVMVersion) : Z :=
  if EVMVersion_ge _evmVersion tangerineWhistle then 350 else 0.
End Versioned.

Definition expGas : Z := 2.
Definition keccak256Gas : Z := 4.
Definition keccak256WordGas : Z := 1.
Definition sstoreSetGas : Z := 1250.
Definition sstoreResetGas : Z := 310.
Definition sstoreRefundGas : Z := 950.
Definition jumpdestGas : Z := 1.
Definition logGas : Z := 24.
Definition logDataGas : Z := 1.
Definition logTopicGas : Z := 24.
Definition createGas : Z := 2000.
Definition callStipend : Z := 1000.
Definition callValueTransferGas : Z := 550.
Definition callNewAccountGas : Z := 1600.
Definition selfdestructRefundGas : Z := 1500.
Definition memoryGas : Z := 1.
Definition quadCoeffDiv : Z := 1024.
Definition createDataGas : Z := 12.
Definition txGas : Z := 25000.
Definition txCreateGas : Z := 20000.
Definition txDataZeroGas : Z := 1.
Definition txDataNonZeroGas : Z := 4.
Definition copyGas : Z := 1.
Definition balanceOfGas : Z := 50.
Definition transferAssetGas : Z := 550.

(** The version-gated entries of the table, in the order of the header. *)
Definition versioned {M : Milestones} (v : EVMVersion) : list Z :=
  [extCodeGas v; balanceGas v; expByteGas v; sloadGas v; callGas v;
   selfdestructGas v].
End GasCosts.

(** ** struct GasMeter::GasConsumption *)

Record GasConsumption : Type := mkGasConsumption {
  value : Z;          (* u256 value *)
  isInfinite : bool   (* bool isInfinite *)
}.

(** The [u256] field holds a 256-bit number. *)
Definition wf (g : GasConsumption) : Prop := U256.in_range (value g).

(** [GasConsumption(unsigned _value = 0, bool _infinite = false)] *)
Definition GasConsumption_unsigned (_value : Z) (_infinite : bool)
  : GasConsumption :=
  {| value := Unsigned.of_Z _value; isInfinite := _infinite |}.

(** [GasConsumption(u256 _value, bool _infinite = false)] *)
Definition GasConsumption_u256 (_value : Z) (_infinite : bool)
  : GasConsumption :=
  {| value := U256.of_Z _value; isInfinite := _infinite |}.

(** [GasConsumption()]: both arguments of the first constructor defaulted. *)
Definition GasConsumption_default : GasConsumption :=
  GasConsumption_unsigned 0 false.

(** [static GasConsumption infinite() { return GasConsumption(0, true); }] *)
Definition infinite : GasConsumption := GasConsumption_unsigned 0 true.

(** [operator<] of [std::tuple<bool const&, u256 const&>]: lexicographic, with
    [false < true] on the first component. *)
Definition bool_lt (a b : bool) : bool := negb a && b.

Definition tuple_lt (a b : bool * Z) : bool :=
  bool_lt (fst a) (fst b)
  || (negb (bool_lt (fst b) (fst a)) && (snd a <? snd b)).

(** [tuple() const { return std::tie(isInfinite, value); }] *)
Definition tuple (g : GasConsumption) : bool * Z := (isInfinite g, value g).

(** [bool operator<(GasConsumption const& _other) const] *)
Definition lt (this _other : GasConsumption) : bool :=
  tuple_lt (tuple this) (tuple _other).

(** Modelled from the spec: [GasConsumption::operator+=], declared in the
    header and defined in the missing GasMeter.cpp.  The spec's [combine]:
    unbounded if either input is unbounded; otherwise the arithmetic sum, an
    overflow of which folds to unbounded.  The unbounded result is the
    canonical [infinite()]. *)
Definition plus_assign (this _other : GasConsumption) : GasConsumption :=
  if isInfinite this || isInfinite _other then infinite
  else
    let v := value this + value _other in
    if U256.max <? v then infinite else GasConsumption_u256 v false.

(** ** External collaborators of the estimator *)

(** [ExpressionClasses::Id]: an opaque identifier issued by the state tracker. *)
Definition Id : Type := nat.

(** Modelled from the spec: the symbolic state tracker ([KnownState] with its
    [ExpressionClasses], only forward-declared in the header).  The estimator
    consumes a query resolving a value reference to a statically known
    constant or reporting it unknown, the references of the operands on the
    not yet popped stack, and a call advancing the state by one item. *)
Class StateTracker : Type := {
  KnownState : Type;
  AssemblyItem : Type;
  knownConstant : KnownState -> Id -> option Z;
  relativeStackElement : KnownState -> Z -> Id;
  feedItem : KnownState -> AssemblyItem -> KnownState
}.

(** Modelled from the spec: the gas price tier of an instruction (the
    instruction table is not part of the header).  There is one tier for
    each of the tier constants the header declares, [tier0Gas] to
    [tier7Gas]. *)
Inductive Tier : Type :=
  Tier0 | Tier1 | Tier2 | Tier3 | Tier4 | Tier5 | Tier6 | Tier7.

Definition allTiers : list Tier :=
  [Tier0; Tier1; Tier2; Tier3; Tier4; Tier5; Tier6; Tier7].

Definition tierGas (t : Tier) : Z :=
  match t with
  | Tier0 => GasCosts.tier0Gas
  | Tier1 => GasCosts.tier1Gas
  | Tier2 => GasCosts.tier2Gas
  | Tier3 => GasCosts.tier3Gas
  | Tier4 => GasCosts.tier4Gas
  | Tier5 => GasCosts.tier5Gas
  | Tier6 => GasCosts.tier6Gas
  | Tier7 => GasCosts.tier7Gas
  end.

(** The tier of each instruction is a historical assignment enumerated as
    data. *)
Class InstructionInfo : Type := {
  Instruction : Type;
  gasPriceTier : Instruction -> Tier
}.

(** Modelled from the spec: what one item contributes to its bound (the
    dispatch of the missing GasMeter.cpp).  Each contribution is one of the
    kinds the spec lists: a tier, version-gated or other fixed constant, a
    word cost over an operand, a memory cost over an offset and size pair of
    operands, the cost of a storage write whose prior content has the given
    reference, or a cost that cannot be bounded. *)
Inductive Contribution : Type :=
| Fixed (gas : Z)
| WordCost (_multiplier : Z) (_stackPos : Z)
| MemoryAccess (_stackPosOffset _stackPosSize : Z)
| StorageWrite (_prior : Id)
| Unbounded.

(** Which contributions an item has, given the version, the flag
    [_includeExternalCosts] and the state before the item. *)
Class Dispatch `{StateTracker} : Type := {
  contributions :
    EVMVersion -> bool -> KnownState -> AssemblyItem -> list Contribution
}.

(** ** class GasMeter *)

Module GasMeter.
Section Meter.
Context {T : StateTracker} {D : Dispatch}.

Record t : Type := mk {
  m_state : KnownState;
  m_evmVersion : EVMVersion;
  m_largestMemoryAccess : Z
}.

(** [GasMeter(_state, _evmVersion, _largestMemoryAccess = 0)] *)
Definition create (_state : KnownState) (_evmVersion : EVMVersion)
    (_largestMemoryAccess : Z) : t :=
  mk _state _evmVersion (U256.of_Z _largestMemoryAccess).

Definition create_default (_state : KnownState) (_evmVersion : EVMVersion)
  : t := create _state _evmVersion 0.

(** [u256 const& largestMemoryAccess() const] *)
Definition largestMemoryAccess (m : t) : Z := m_largestMemoryAccess m.

(** Exact ceiling of [size / 32]. *)
Definition ceilDiv32 (size : Z) : Z :=
  size / 32 + (if size mod 32 =? 0 then 0 else 1).

(** Modelled from the spec: [wordGas], declared in the header and defined
    in the missing GasMeter.cpp.  Resolve the reference; if it is not a
    statically known constant the cost is unbounded, otherwise it is the
    finite value of the rate times the exact ceiling of size / 32. *)
Definition wordGas (m : t) (_multiplier : Z) (_value : Id)
  : GasConsumption :=
  match knownConstant (m_state m) _value with
  | None => infinite
  | Some size => mkGasConsumption (_multiplier * ceilDiv32 size) false
  end.

(** The header's comment on [wordGas] read with the precedence of C++:
    [_multiplier * (_value + 31) / 32]. *)
Definition wordGas_comment_formula (_multiplier _value : Z) : Z :=
  _multiplier * (_value + 31) / 32.

(** Modelled from the spec: the price of a memory of the given size in
    bytes, linearRate * words + words^2 / quadraticDivisor. *)
Definition memGas (pos : Z) : Z :=
  let words := ceilDiv32 pos in
  GasCosts.memoryGas * words + words * words / GasCosts.quadCoeffDiv.

(** Modelled from the spec: [memoryGas], entry point (a), on a resolved
    offset: the marginal growth beyond the current mark is charged and the
    mark advances to the new maximum. *)
Definition memoryGasAt (m : t) (pos : Z) : GasConsumption * t :=
  let previous := m_largestMemoryAccess m in
  let largest := Z.max previous pos in
  (GasConsumption_u256 (memGas largest - memGas previous) false,
   mk (m_state m) (m_evmVersion m) largest).

(** Modelled from the spec: [memoryGas(ExpressionClasses::Id _position)];
    an offset that is not statically known is unbounded and leaves the
    mark unchanged. *)
Definition memoryGas (m : t) (_position : Id) : GasConsumption * t :=
  match knownConstant (m_state m) _position with
  | None => (infinite, m)
  | Some pos => memoryGasAt m pos
  end.

(** Modelled from the spec: [memoryGas(int _stackPosOffset, int
    _stackPosSize)], entry point (b).  A statically known zero size is
    checked first and costs nothing; otherwise offset and size must both be
    known, and the end offset is priced by (a). *)
Definition memoryGas_stack (m : t) (_stackPosOffset _stackPosSize : Z)
  : GasConsumption * t :=
  let offset := relativeStackElement (m_state m) _stackPosOffset in
  let size := relativeStackElement (m_state m) _stackPosSize in
  match knownConstant (m_state m) size with
  | Some 0 => (GasConsumption_unsigned 0 false, m)
  | Some s =>
      match knownConstant (m_state m) offset with
      | Some o => memoryGasAt m (U256.of_Z (o + s))
      | None => (infinite, m)
      end
  | None => (infinite, m)
  end.

(** Modelled from the spec: the bound of a persistent-storage write (part
    of the missing [estimateMax]).  The set cost applies to a change from
    zero, the reset cost to a change among nonzero values; when the prior
    value is not statically known the larger of the two is used.  No refund
    enters the bound. *)
Definition sstoreGas (m : t) (_prior : Id) : GasConsumption :=
  match knownConstant (m_state m) _prior with
  | None =>
      GasConsumption_unsigned
        (Z.max GasCosts.sstoreSetGas GasCosts.sstoreResetGas) false
  | Some 0 => GasConsumption_unsigned GasCosts.sstoreSetGas false
  | Some _ => GasConsumption_unsigned GasCosts.sstoreResetGas false
  end.

Definition contribute (m : t) (c : Contribution) : GasConsumption * t :=
  match c with
  | Fixed gas => (GasConsumption_unsigned gas false, m)
  | WordCost r p => (wordGas m r (relativeStackElement (m_state m) p), m)
  | MemoryAccess o s => memoryGas_stack m o s
  | StorageWrite p => (sstoreGas m p, m)
  | Unbounded => (infinite, m)
  end.

(** All contributions are combined with [operator+=], in order. *)
Fixpoint combine (gas : GasConsumption) (m : t) (cs : list Contribution)
  : GasConsumption * t :=
  match cs with
  | [] => (gas, m)
  | c :: cs' =>
      let (g, m') := contribute m c in
      combine (plus_assign gas g) m' cs'
  end.

(** Modelled from the spec: [estimateMax], declared in the header and
    defined in the missing GasMeter.cpp.  The item's contributions are
    resolved against the state before the item and combined; the state
    tracker then advances by the item. *)
Definition estimateMax (m : t) (_item : AssemblyItem)
    (_includeExternalCosts : bool) : GasConsumption * t :=
  let cs :=
    contributions (m_evmVersion m) _includeExternalCosts (m_state m) _item in
  let (gas, m') := combine GasConsumption_default m cs in
  (gas,
   mk (feedItem (m_state m') _item) (m_evmVersion m')
      (m_largestMemoryAccess m')).

(** A sequence of calls on one meter: the meter before the first call and
    after each call, in order. *)
Fixpoint session (m : t) (calls : list (AssemblyItem * bool)) : list t :=
  match calls with
  | [] => [m]
  | (item, inc) :: rest => m :: session (snd (estimateMax m item inc)) rest
  end.
End Meter.

Section RunGas.
Context {I : InstructionInfo}.

(** Modelled from the spec: [static unsigned runGas(Instruction)], declared
    in the header and defined in the missing GasMeter.cpp: the fixed cost of
    the tier of the instruction. *)
Definition runGas (_instruction : Instruction) : Z :=
  tierGas (gasPriceTier _instruction).
End RunGas.
End GasMeter.

(** ** A small concrete instance, on which the definitions can be run *)

(** Two milestones in upgrade order, with one version before them. *)
Definition sampleMilestones : Milestones :=
  {| tangerineWhistle := mkEVMVersion 1; spuriousDragon := mkEVMVersion 2 |}.

(** A tracker whose state is the table of known constants, whose items carry
    their own contributions, and whose stack position [p] holds the reference
    [|p|]. *)
Definition sampleTracker : StateTracker :=
  {| KnownState := Id -> option Z;
     AssemblyItem := list Contribution;
     knownConstant := fun st id => st id;
     relativeStackElement := fun _ p => Z.abs_nat p;
     feedItem := fun st _ => st |}.

Definition sampleDispatch : @Dispatch sampleTracker :=
  @Build_Dispatch sampleTracker
    (fun _ _ _ (item : list Contribution) => item).

(** References 0, 1, 2 and 3 are the constants 64, 32, 0 and 33; all others
    are unknown. *)
Definition sampleState : @KnownState sampleTracker :=
  fun id =>
    match id with
    | O => Some 64
    | S O => Some 32
    | S (S O) => Some 0
    | S (S (S O)) => Some 33
    | _ => None
    end.

(** A store of one word at offset 64 followed by one at offset 0. *)
Definition sampleCalls : list (@AssemblyItem sampleTracker * bool) :=
  [([Fixed 1; MemoryAccess 0 1], true); ([Fixed 1; MemoryAccess 2 1], true)].

Definition sampleMeter : @GasMeter.t sampleTracker :=
  GasMeter.create_default sampleState (mkEVMVersion 1).

(** An instruction set of two instructions, one in the seventh and one in the
    eighth tier. *)
Definition sampleInstructions : InstructionInfo :=
  {| Instruction := bool;
     gasPriceTier := fun i => if i then Tier6 else Tier7 |}.

(** ** The cost value *)

Lemma U256_of_Z_small (z : Z) : U256.in_range z -> U256.of_Z z = z.
Proof.
  unfold U256.in_range, U256.of_Z. intros Hz.
  apply Z.mod_small. exact Hz.
Qed.

Lemma U256_of_Z_in_range (z : Z) : U256.in_range (U256.of_Z z).
Proof.
  unfold U256.in_range, U256.of_Z.
  apply Z.mod_pos_bound. reflexivity.
Qed.

Lemma infinite_fields : value infinite = 0 /\ isInfinite infinite = true.
Proof. split; reflexivity. Qed.

Lemma plus_assign_infinite_l (u x : GasConsumption) :
  isInfinite u = true -> plus_assign u x = infinite.
Proof. intros Hu. unfold plus_assign. rewrite Hu. reflexivity. Qed.

Lemma plus_assign_infinite_r (u x : GasConsumption) :
  isInfinite u = true -> plus_assign x u = infinite.
Proof.
  intros Hu. unfold plus_assign. rewrite Hu, orb_true_r. reflexivity.
Qed.

Lemma plus_assign_finite (a b : GasConsumption) :
  isInfinite a = false -> isInfinite b = false ->
  plus_assign a b =
    if U256.max <? value a + value b then infinite
    else GasConsumption_u256 (value a + value b) false.
Proof. intros Ha Hb. unfold plus_assign. rewrite Ha, Hb. reflexivity. Qed.

(** The sum keeps the field within 256 bits. *)
Lemma plus_assign_wf (a b : GasConsumption) : wf (plus_assign a b).
Proof.
  unfold plus_assign, wf.
  destruct (isInfinite a || isInfinite b).
  - cbn. unfold U256.in_range. split; [reflexivity | reflexivity].
  - cbv zeta. destruct (U256.max <? value a + value b).
    + cbn. unfold U256.in_range. split; reflexivity.
    + cbn [value GasConsumption_u256]. apply U256_of_Z_in_range.
Qed.

(** C1.  Combination with [operator+=] is absorbing in the unbounded element:
    combining an unbounded value (in particular [infinite()]) with any cost
    value, in either order, yields an unbounded value; combining two finite
    values whose arithmetic sum does not overflow 256 bits yields the finite
    arithmetic sum. *)
Theorem plus_assign_absorbing (u x a b : GasConsumption) :
  isInfinite (plus_assign infinite x) = true /\
  isInfinite (plus_assign x infinite) = true /\
  (isInfinite u = true ->
   isInfinite (plus_assign u x) = true /\
   isInfinite (plus_assign x u) = true) /\
  (isInfinite a = false -> isInfinite b = false -> wf a -> wf b ->
   value a + value b <= U256.max ->
   plus_assign a b = mkGasConsumption (value a + value b) false).
Proof.
  split; [| split; [| split]].
  - rewrite plus_assign_infinite_l; reflexivity.
  - rewrite plus_assign_infinite_r; reflexivity.
  - intros Hu. split.
    + rewrite plus_assign_infinite_l; [reflexivity | assumption].
    + rewrite plus_assign_infinite_r; [reflexivity | assumption].
  - intros Ha Hb [Ha0 _] [Hb0 _] Hsum.
    rewrite plus_assign_finite by assumption.
    destruct (Z.ltb_spec U256.max (value a + value b)) as [Hlt | _]; [lia |].
    unfold GasConsumption_u256. f_equal.
    apply U256_of_Z_small. unfold U256.in_range, U256.max in *. lia.
Qed.

Lemma plus_assign_absorbing_witness :
  isInfinite
    (plus_assign (GasConsumption_u256 9 true) (GasConsumption_unsigned 5 false))
    = true /\
  plus_assign (GasConsumption_unsigned 3 false) (GasConsumption_unsigned 4 false)
    = mkGasConsumption 7 false.
Proof.
  destruct (plus_assign_absorbing
              (GasConsumption_u256 9 true) (GasConsumption_unsigned 5 false)
              (GasConsumption_unsigned 3 false)
              (GasConsumption_unsigned 4 false))
    as (_ & _ & Hu & Hfin).
  split.
  - apply Hu. reflexivity.
  - apply Hfin.
    + reflexivity.
    + reflexivity.
    + vm_compute. split; [discriminate | reflexivity].
    + vm_compute. split; [discriminate | reflexivity].
    + vm_compute. discriminate.
Defined.

(** C2.  Two finite cost values whose arithmetic sum exceeds the 256-bit
    range combine to the unbounded value, never to a finite amount. *)
Theorem plus_assign_overflow (a b : GasConsumption) :
  isInfinite a = false -> isInfinite b = false ->
  U256.max < value a + value b ->
  plus_assign a b = infinite /\ isInfinite (plus_assign a b) = true.
Proof.
  intros Ha Hb Hsum.
  assert (E : plus_assign a b = infinite).
  { rewrite plus_assign_finite by assumption.
    destruct (Z.ltb_spec U256.max (value a + value b)) as [_ | Hle];
      [reflexivity | lia]. }
  rewrite E. split; reflexivity.
Qed.

Lemma plus_assign_overflow_witness :
  plus_assign (GasConsumption_u256 U256.max false)
              (GasConsumption_unsigned 1 false) = infinite /\
  isInfinite (plus_assign (GasConsumption_u256 U256.max false)
                          (GasConsumption_unsigned 1 false)) = true.
Proof.
  apply (plus_assign_overflow (GasConsumption_u256 U256.max false)
                              (GasConsumption_unsigned 1 false)).
  - reflexivity.
  - reflexivity.
  - vm_compute. reflexivity.
Defined.

(** ** Ordering of cost values *)

Lemma lt_unfold (a b : GasConsumption) :
  lt a b =
    (negb (isInfinite a) && isInfinite b)
    || (negb (negb (isInfinite b) && isInfinite a) && (value a <? value b)).
Proof. reflexivity. Qed.

Lemma lt_same_flag (a b : GasConsumption) :
  isInfinite a = isInfinite b -> lt a b = (value a <? value b).
Proof.
  intros E. rewrite lt_unfold, E.
  destruct (isInfinite b); reflexivity.
Qed.

Lemma lt_finite_infinite (a b : GasConsumption) :
  isInfinite a = false -> isInfinite b = true ->
  lt a b = true /\ lt b a = false.
Proof.
  intros Ha Hb. rewrite !lt_unfold, Ha, Hb. split; reflexivity.
Qed.

(** The order is a strict total order on the pairs (isInfinite, value). *)
Lemma lt_irrefl (a : GasConsumption) : lt a a = false.
Proof. rewrite lt_same_flag by reflexivity. apply Z.ltb_irrefl. Qed.

Lemma lt_trans (a b c : GasConsumption) :
  lt a b = true -> lt b c = true -> lt a c = true.
Proof.
  rewrite !lt_unfold.
  destruct (isInfinite a), (isInfinite b), (isInfinite c); cbn;
    rewrite ?Z.ltb_lt; try discriminate; try reflexivity; lia.
Qed.

Lemma lt_total (a b : GasConsumption) :
  lt a b = false -> lt b a = false ->
  isInfinite a = isInfinite b /\ value a = value b.
Proof.
  rewrite !lt_unfold.
  destruct (isInfinite a), (isInfinite b); cbn;
    rewrite ?Z.ltb_ge; try discriminate; intros; split; try reflexivity; lia.
Qed.

(** C4, as stated, fails: the two unbounded values [GasConsumption(0, true)]
    and [GasConsumption(1, true)] are not mutually equal, the first is less
    than the second. *)
Lemma lt_unbounded_payload_counterexample :
  isInfinite infinite = true /\
  isInfinite (GasConsumption_unsigned 1 true) = true /\
  lt infinite (GasConsumption_unsigned 1 true) = true /\
  ~ (forall u v : GasConsumption,
       isInfinite u = true -> isInfinite v = true ->
       lt u v = false /\ lt v u = false).
Proof.
  split; [reflexivity | split; [reflexivity | split; [reflexivity |]]].
  intros H.
  destruct (H infinite (GasConsumption_unsigned 1 true)
              eq_refl eq_refl) as [H1 _].
  discriminate H1.
Qed.

(** C4, amended.  [operator<] places every unbounded value strictly above
    every finite value, orders two finite values by numeric magnitude, and
    orders two unbounded values by their numeric payload: two unbounded values
    are mutually equal exactly when their payloads are equal, as for any two
    results of [infinite()]. *)
Theorem lt_lexicographic (a b : GasConsumption) :
  (isInfinite a = false -> isInfinite b = true ->
   lt a b = true /\ lt b a = false) /\
  (isInfinite a = false -> isInfinite b = false ->
   lt a b = (value a <? value b)) /\
  (isInfinite a = true -> isInfinite b = true ->
   lt a b = (value a <? value b) /\
   ((lt a b = false /\ lt b a = false) <-> value a = value b)) /\
  (lt infinite infinite = false).
Proof.
  split; [| split; [| split]].
  - apply lt_finite_infinite.
  - intros Ha Hb. apply lt_same_flag. congruence.
  - intros Ha Hb.
    assert (E : isInfinite a = isInfinite b) by congruence.
    split; [apply lt_same_flag; exact E |].
    rewrite (lt_same_flag a b E), (lt_same_flag b a (eq_sym E)).
    rewrite !Z.ltb_ge. lia.
  - apply lt_irrefl.
Qed.

Lemma lt_lexicographic_witness :
  (lt (GasConsumption_u256 U256.max false) infinite = true /\
   lt infinite (GasConsumption_u256 U256.max false) = false) /\
  lt (GasConsumption_unsigned 3 false) (GasConsumption_unsigned 4 false)
    = (3 <? 4) /\
  lt (GasConsumption_unsigned 0 true) (GasConsumption_unsigned 1 true)
    = (0 <? 1).
Proof.
  destruct (lt_lexicographic (GasConsumption_u256 U256.max false) infinite)
    as (Hfu & _).
  destruct (lt_lexicographic (GasConsumption_unsigned 3 false)
                             (GasConsumption_unsigned 4 false))
    as (_ & Hff & _).
  destruct (lt_lexicographic (GasConsumption_unsigned 0 true)
                             (GasConsumption_unsigned 1 true))
    as (_ & _ & Huu & _).
  split; [| split].
  - apply Hfu; reflexivity.
  - apply Hff; reflexivity.
  - apply Huu; reflexivity.
Defined.

(** ** Construction of cost values *)

Lemma GasConsumption_u256_in_range (v : Z) (inf : bool) :
  U256.in_range v -> GasConsumption_u256 v inf = mkGasConsumption v inf.
Proof.
  intros Hv. unfold GasConsumption_u256.
  rewrite U256_of_Z_small by exact Hv. reflexivity.
Qed.

Lemma GasConsumption_unsigned_in_range (v : Z) (inf : bool) :
  Unsigned.in_range v -> GasConsumption_unsigned v inf = mkGasConsumption v inf.
Proof.
  intros Hv. unfold GasConsumption_unsigned, Unsigned.of_Z.
  rewrite Z.mod_small by exact Hv. reflexivity.
Qed.

(** C10.  A default-constructed [GasConsumption] is the finite value 0,
    [infinite()] is unbounded with payload 0, and the two-argument
    constructors also build unbounded values with a nonzero payload. *)
Theorem GasConsumption_constructors :
  value GasConsumption_default = 0 /\
  isInfinite GasConsumption_default = false /\
  isInfinite infinite = true /\
  value infinite = 0 /\
  (exists v : Z,
     isInfinite (GasConsumption_u256 v true) = true /\
     value (GasConsumption_u256 v true) = v /\
     (v =? 0) = false) /\
  (exists v : Z,
     isInfinite (GasConsumption_unsigned v true) = true /\
     value (GasConsumption_unsigned v true) = v /\
     (v =? 0) = false).
Proof.
  repeat (split; [reflexivity |]).
  split; exists 5; repeat split; reflexivity.
Qed.

(** ** The versioned cost table *)

Lemma EVMVersion_ge_true (v w : EVMVersion) :
  EVMVersion_ge v w = true <-> (m_version w <= m_version v)%nat.
Proof. unfold EVMVersion_ge. apply Nat.leb_le. Qed.

Lemma EVMVersion_ge_false (v w : EVMVersion) :
  EVMVersion_ge v w = false <-> EVMVersion_lt v w.
Proof. unfold EVMVersion_ge, EVMVersion_lt. apply Nat.leb_gt. Qed.

(** A version is below a milestone or at or above it, never both. *)
Lemma EVMVersion_below_or_reached (v w : EVMVersion) :
  {EVMVersion_lt v w} + {(m_version w <= m_version v)%nat}.
Proof.
  unfold EVMVersion_lt.
  destruct (le_lt_dec (m_version w) (m_version v)); [right | left]; assumption.
Qed.

Section CostTable.
Context {M : Milestones}.

(** C5.  The storage-load cost is exactly 50 for a version below
    tangerineWhistle and exactly 20 for a version at or above it; two
    versions on the same side of the milestone have the same cost. *)
Theorem sloadGas_gate (v v' : EVMVersion) :
  (EVMVersion_lt v tangerineWhistle -> GasCosts.sloadGas v = 50) /\
  ((m_version tangerineWhistle <= m_version v)%nat ->
   GasCosts.sloadGas v = 20) /\
  (EVMVersion_ge v tangerineWhistle = EVMVersion_ge v' tangerineWhistle ->
   GasCosts.sloadGas v = GasCosts.sloadGas v').
Proof.
  unfold GasCosts.sloadGas. split; [| split].
  - intros H. apply EVMVersion_ge_false in H. rewrite H. reflexivity.
  - intros H. apply EVMVersion_ge_true in H. rewrite H. reflexivity.
  - intros E. rewrite E. reflexivity.
Qed.

(** C9.  The version-gated values: external-code query 20 then 45, balance
    query 20 then 25, message call 40 then 45, self-destruct 0 then 350,
    all gated by tangerineWhistle; exponentiation per-byte surcharge 10
    then 4, gated by spuriousDragon.  The table depends on the version
    only through these two comparisons. *)
Theorem versioned_costs (v v' : EVMVersion) :
  (EVMVersion_lt v tangerineWhistle ->
   GasCosts.extCodeGas v = 20 /\ GasCosts.balanceGas v = 20 /\
   GasCosts.callGas v = 40 /\ GasCosts.selfdestructGas v = 0) /\
  ((m_version tangerineWhistle <= m_version v)%nat ->
   GasCosts.extCodeGas v = 45 /\ GasCosts.balanceGas v = 25 /\
   GasCosts.callGas v = 45 /\ GasCosts.selfdestructGas v = 350) /\
  (EVMVersion_lt v spuriousDragon -> GasCosts.expByteGas v = 10) /\
  ((m_version spuriousDragon <= m_version v)%nat ->
   GasCosts.expByteGas v = 4) /\
  (EVMVersion_ge v tangerineWhistle = EVMVersion_ge v' tangerineWhistle ->
   EVMVersion_ge v spuriousDragon = EVMVersion_ge v' spuriousDragon ->
   GasCosts.versioned v = GasCosts.versioned v').
Proof.
  unfold GasCosts.versioned, GasCosts.extCodeGas, GasCosts.balanceGas,
    GasCosts.callGas, GasCosts.selfdestructGas, GasCosts.expByteGas,
    GasCosts.sloadGas.
  split; [| split; [| split; [| split]]].
  - intros H. apply EVMVersion_ge_false in H. rewrite H. repeat split.
  - intros H. apply EVMVersion_ge_true in H. rewrite H. repeat split.
  - intros H. apply EVMVersion_ge_false in H. rewrite H. reflexivity.
  - intros H. apply EVMVersion_ge_true in H. rewrite H. reflexivity.
  - intros E1 E2. rewrite E1, E2. reflexivity.
Qed.
End CostTable.

Lemma sloadGas_gate_witness :
  @GasCosts.sloadGas sampleMilestones (mkEVMVersion 0) = 50 /\
  @GasCosts.sloadGas sampleMilestones (mkEVMVersion 1) = 20 /\
  @GasCosts.sloadGas sampleMilestones (mkEVMVersion 1)
    = @GasCosts.sloadGas sampleMilestones (mkEVMVersion 7).
Proof.
  destruct (@sloadGas_gate sampleMilestones (mkEVMVersion 0) (mkEVMVersion 0))
    as (Hlow & _ & _).
  destruct (@sloadGas_gate sampleMilestones (mkEVMVersion 1) (mkEVMVersion 7))
    as (_ & Hhigh & Hsame).
  split; [| split].
  - apply Hlow. unfold EVMVersion_lt. simpl. lia.
  - apply Hhigh. simpl. lia.
  - apply Hsame. reflexivity.
Defined.

Lemma versioned_costs_witness :
  (@GasCosts.extCodeGas sampleMilestones (mkEVMVersion 0) = 20 /\
   @GasCosts.balanceGas sampleMilestones (mkEVMVersion 0) = 20 /\
   @GasCosts.callGas sampleMilestones (mkEVMVersion 0) = 40 /\
   @GasCosts.selfdestructGas sampleMilestones (mkEVMVersion 0) = 0) /\
  (@GasCosts.extCodeGas sampleMilestones (mkEVMVersion 1) = 45 /\
   @GasCosts.balanceGas sampleMilestones (mkEVMVersion 1) = 25 /\
   @GasCosts.callGas sampleMilestones (mkEVMVersion 1) = 45 /\
   @GasCosts.selfdestructGas sampleMilestones (mkEVMVersion 1) = 350) /\
  @GasCosts.expByteGas sampleMilestones (mkEVMVersion 1) = 10 /\
  @GasCosts.expByteGas sampleMilestones (mkEVMVersion 2) = 4 /\
  @GasCosts.versioned sampleMilestones (mkEVMVersion 2)
    = @GasCosts.versioned sampleMilestones (mkEVMVersion 9).
Proof.
  destruct (@versioned_costs sampleMilestones (mkEVMVersion 0) (mkEVMVersion 0))
    as (Hlow & _).
  destruct (@versioned_costs sampleMilestones (mkEVMVersion 1) (mkEVMVersion 1))
    as (_ & Hhigh & Hexp & _).
  destruct (@versioned_costs sampleMilestones (mkEVMVersion 2) (mkEVMVersion 9))
    as (_ & _ & _ & Hexp' & Hsame).
  split; [| split; [| split; [| split]]].
  - apply Hlow. unfold EVMVersion_lt. simpl. lia.
  - apply Hhigh. simpl. lia.
  - apply Hexp. unfold EVMVersion_lt. simpl. lia.
  - apply Hexp'. simpl. lia.
  - apply Hsame; reflexivity.
Defined.

(** ** Fixed tier costs *)

Lemma allTiers_complete (t : Tier) : In t allTiers.
Proof. destruct t; simpl; tauto. Qed.

Lemma allTiers_NoDup : NoDup allTiers.
Proof.
  unfold allTiers.
  repeat (constructor; [simpl; intuition discriminate |]).
  constructor.
Qed.

(** The costs of the tiers are the header's constants, in order. *)
Lemma tier_costs :
  map tierGas allTiers
    = [GasCosts.tier0Gas; GasCosts.tier1Gas; GasCosts.tier2Gas;
       GasCosts.tier3Gas; GasCosts.tier4Gas; GasCosts.tier5Gas;
       GasCosts.tier6Gas; GasCosts.tier7Gas] /\
  map tierGas allTiers = [0; 1; 1; 2; 3; 4; 7; 0].
Proof. split; reflexivity. Qed.

(** The eighth constant repeats the cost of the first, so the tiers have six
    distinct costs. *)
Lemma tierGas_values (t : Tier) : In (tierGas t) [0; 1; 2; 3; 4; 7].
Proof. destruct t; simpl; tauto. Qed.



(** ** Word costs *)

Lemma ceilDiv32_add31 (size : Z) : GasMeter.ceilDiv32 size = (size + 31) / 32.
Proof.
  unfold GasMeter.ceilDiv32.
  pose proof (Z.div_mod size 32 ltac:(discriminate)) as Hdm.
  pose proof (Z.mod_pos_bound size 32 eq_refl) as Hr.
  destruct (Z.eqb_spec (size mod 32) 0) as [E | N].
  - apply (Z.div_unique_pos _ _ _ 31); lia.
  - apply (Z.div_unique_pos _ _ _ (size mod 32 - 1)); lia.
Qed.

(** [ceilDiv32 size] is the least number of 32-byte words covering [size]. *)
Lemma ceilDiv32_exact (size : Z) :
  32 * (GasMeter.ceilDiv32 size - 1) < size <= 32 * GasMeter.ceilDiv32 size.
Proof.
  unfold GasMeter.ceilDiv32.
  pose proof (Z.div_mod size 32 ltac:(discriminate)) as Hdm.
  pose proof (Z.mod_pos_bound size 32 eq_refl) as Hr.
  destruct (Z.eqb_spec (size mod 32) 0); lia.
Qed.

Lemma ceilDiv32_nonneg (size : Z) : 0 <= size -> 0 <= GasMeter.ceilDiv32 size.
Proof. intros Hs. pose proof (ceilDiv32_exact size). lia. Qed.

Lemma ceilDiv32_monotone (a b : Z) :
  a <= b -> GasMeter.ceilDiv32 a <= GasMeter.ceilDiv32 b.
Proof.
  intros Hab. rewrite !ceilDiv32_add31.
  apply Z.div_le_mono; lia.
Qed.

(** The formula of the header's comment must be read with the division
    applied to the size first: multiplying before dividing gives another
    number. *)
Lemma wordGas_comment_formula_grouping :
  GasMeter.wordGas_comment_formula 2 17 = 3 /\ 2 * ((17 + 31) / 32) = 2.
Proof. split; reflexivity. Qed.

Section Estimator.
Context {T : StateTracker} {D : Dispatch}.


(** ** Storage writes *)

Lemma sstore_constants :
  Z.max GasCosts.sstoreSetGas GasCosts.sstoreResetGas = 1250 /\
  GasCosts.sstoreSetGas = 1250 /\
  GasCosts.sstoreResetGas = 310 /\
  GasCosts.sstoreRefundGas = 950.
Proof. repeat split. Qed.

(** C7.  A storage write whose prior value is not statically known is
    bounded by the larger of the set cost 1250 and the reset cost 310, that
    is by 1250, not by the smaller one, and the refund 950 is not
    subtracted; an item contributing just this write is estimated at
    exactly that bound. *)
Theorem sstoreGas_unknown_prior (m : GasMeter.t) (prior : Id)
    (item : AssemblyItem) (inc : bool) :
  knownConstant (GasMeter.m_state m) prior = None ->
  GasMeter.sstoreGas m prior = mkGasConsumption 1250 false /\
  value (GasMeter.sstoreGas m prior)
    = Z.max GasCosts.sstoreSetGas GasCosts.sstoreResetGas /\
  value (GasMeter.sstoreGas m prior) = GasCosts.sstoreSetGas /\
  GasCosts.sstoreResetGas < value (GasMeter.sstoreGas m prior) /\
  Z.max GasCosts.sstoreSetGas GasCosts.sstoreResetGas
    - GasCosts.sstoreRefundGas < value (GasMeter.sstoreGas m prior) /\
  (contributions (GasMeter.m_evmVersion m) inc (GasMeter.m_state m) item
     = [StorageWrite prior] ->
   fst (GasMeter.estimateMax m item inc) = mkGasConsumption 1250 false).
Proof.
  intros Hk.
  assert (E : GasMeter.sstoreGas m prior = mkGasConsumption 1250 false).
  { unfold GasMeter.sstoreGas. rewrite Hk. reflexivity. }
  rewrite E. cbn [value].
  repeat (split; [reflexivity |]).
  intros Hc. unfold GasMeter.estimateMax. rewrite Hc.
  cbn [GasMeter.combine GasMeter.contribute]. rewrite E. reflexivity.
Qed.
End Estimator.

(** ** The memory high-water mark *)

Section HighWaterMark.
Context {T : StateTracker} {D : Dispatch}.

Lemma memoryGasAt_mark (m : GasMeter.t) (pos : Z) :
  GasMeter.largestMemoryAccess (snd (GasMeter.memoryGasAt m pos))
    = Z.max (GasMeter.largestMemoryAccess m) pos.
Proof. reflexivity. Qed.

Lemma memoryGas_mark (m : GasMeter.t) (_position : Id) :
  GasMeter.largestMemoryAccess m
    <= GasMeter.largestMemoryAccess (snd (GasMeter.memoryGas m _position)).
Proof.
  unfold GasMeter.memoryGas.
  destruct (knownConstant (GasMeter.m_state m) _position) as [pos |].
  - rewrite memoryGasAt_mark. apply Z.le_max_l.
  - apply Z.le_refl.
Qed.

Lemma memoryGas_stack_mark (m : GasMeter.t) (o s : Z) :
  GasMeter.largestMemoryAccess m
    <= GasMeter.largestMemoryAccess (snd (GasMeter.memoryGas_stack m o s)).
Proof.
  unfold GasMeter.memoryGas_stack. cbv zeta.
  destruct (knownConstant _ (relativeStackElement _ s)) as [[| p | p] |];
    try apply Z.le_refl;
    destruct (knownConstant _ (relativeStackElement _ o));
    try apply Z.le_refl; rewrite memoryGasAt_mark; apply Z.le_max_l.
Qed.

Lemma contribute_mark (m : GasMeter.t) (c : Contribution) :
  GasMeter.largestMemoryAccess m
    <= GasMeter.largestMemoryAccess (snd (GasMeter.contribute m c)).
Proof.
  destruct c; cbn [GasMeter.contribute snd]; try apply Z.le_refl.
  apply memoryGas_stack_mark.
Qed.

Lemma combine_mark (cs : list Contribution) :
  forall (gas : GasConsumption) (m : GasMeter.t),
    GasMeter.largestMemoryAccess m
    <= GasMeter.largestMemoryAccess (snd (GasMeter.combine gas m cs)).
Proof.
  induction cs as [| c cs IH]; intros gas m; cbn [GasMeter.combine].
  - apply Z.le_refl.
  - pose proof (contribute_mark m c) as Hc.
    destruct (GasMeter.contribute m c) as [g m'].
    cbn [snd] in Hc.
    eapply Z.le_trans; [exact Hc | apply IH].
Qed.

Lemma estimateMax_mark (m : GasMeter.t) (item : AssemblyItem) (inc : bool) :
  GasMeter.largestMemoryAccess m
    <= GasMeter.largestMemoryAccess (snd (GasMeter.estimateMax m item inc)).
Proof.
  unfold GasMeter.estimateMax. cbv zeta.
  pose proof
    (combine_mark
       (contributions (GasMeter.m_evmVersion m) inc (GasMeter.m_state m) item)
       GasConsumption_default m) as Hc.
  destruct (GasMeter.combine _ m _) as [gas m'].
  exact Hc.
Qed.

(** A session lists the meter before and after every call. *)
Lemma session_length (calls : list (AssemblyItem * bool)) :
  forall m : GasMeter.t,
    length (GasMeter.session m calls) = S (length calls).
Proof.
  induction calls as [| [item inc] rest IH]; intros m; simpl.
  - reflexivity.
  - rewrite IH. reflexivity.
Qed.

Lemma session_head (calls : list (AssemblyItem * bool)) (m : GasMeter.t) :
  nth_error (GasMeter.session m calls) 0 = Some m.
Proof. destruct calls as [| [item inc] rest]; reflexivity. Qed.

Lemma session_step (calls : list (AssemblyItem * bool)) :
  forall (m : GasMeter.t) (n : nat) (before : GasMeter.t)
         (item : AssemblyItem) (inc : bool),
    nth_error (GasMeter.session m calls) n = Some before ->
    nth_error calls n = Some (item, inc) ->
    nth_error (GasMeter.session m calls) (S n)
      = Some (snd (GasMeter.estimateMax before item inc)).
Proof.
  induction calls as [| [item0 inc0] rest IH]; intros m n before item inc.
  - destruct n; discriminate.
  - destruct n as [| n]; cbn [GasMeter.session nth_error].
    + intros Hb Hc. injection Hb as <-. injection Hc as <- <-.
      apply session_head.
    + apply IH.
Qed.

Lemma session_tail (m : GasMeter.t) (item : AssemblyItem) (inc : bool)
    (rest : list (AssemblyItem * bool)) (n : nat) :
  nth_error (GasMeter.session m ((item, inc) :: rest)) (S n)
    = nth_error
        (GasMeter.session (snd (GasMeter.estimateMax m item inc)) rest) n.
Proof. reflexivity. Qed.

Lemma session_monotone (calls : list (AssemblyItem * bool)) :
  forall (m : GasMeter.t) (n : nat) (before after : GasMeter.t),
    nth_error (GasMeter.session m calls) n = Some before ->
    nth_error (GasMeter.session m calls) (S n) = Some after ->
    GasMeter.largestMemoryAccess before <= GasMeter.largestMemoryAccess after.
Proof.
  induction calls as [| [item inc] rest IH]; intros m n before after.
  - destruct n as [| [| n]]; discriminate.
  - destruct n as [| n].
    + rewrite session_head, session_tail, session_head.
      intros Hb Ha. injection Hb as <-. injection Ha as <-.
      apply estimateMax_mark.
    + rewrite !session_tail. apply IH.
Qed.

(** C8.  Over every sequence of [estimateMax] calls on one meter, the value
    of [largestMemoryAccess()] after each call is at least its value before
    that call. *)
Theorem largestMemoryAccess_monotone (m : GasMeter.t)
    (calls : list (AssemblyItem * bool)) (n : nat)
    (before after : GasMeter.t) (item : AssemblyItem) (inc : bool) :
  nth_error (GasMeter.session m calls) n = Some before ->
  nth_error calls n = Some (item, inc) ->
  nth_error (GasMeter.session m calls) (S n) = Some after ->
  after = snd (GasMeter.estimateMax before item inc) /\
  GasMeter.largestMemoryAccess before <= GasMeter.largestMemoryAccess after.
Proof.
  intros Hb Hc Ha. split.
  - rewrite (session_step calls m n before item inc Hb Hc) in Ha.
    injection Ha as <-. reflexivity.
  - exact (session_monotone calls m n before after Hb Ha).
Qed.
End HighWaterMark.


Lemma sstoreGas_unknown_prior_witness :
  @GasMeter.sstoreGas sampleTracker sampleMeter 5%nat
    = mkGasConsumption 1250 false /\
  fst (@GasMeter.estimateMax sampleTracker sampleDispatch sampleMeter
         [StorageWrite 5%nat] true)
    = mkGasConsumption 1250 false.
Proof.
  destruct (@sstoreGas_unknown_prior sampleTracker sampleDispatch sampleMeter
              5%nat [StorageWrite 5%nat] true eq_refl)
    as (Hgas & _ & _ & _ & _ & Hest).
  split.
  - exact Hgas.
  - apply Hest. reflexivity.
Defined.

Lemma largestMemoryAccess_monotone_witness :
  map GasMeter.largestMemoryAccess
      (@GasMeter.session sampleTracker sampleDispatch sampleMeter sampleCalls)
    = [0; 96; 96] /\
  GasMeter.largestMemoryAccess
    (snd (@GasMeter.estimateMax sampleTracker sampleDispatch sampleMeter
            [Fixed 1; MemoryAccess 0 1] true))
  <= GasMeter.largestMemoryAccess
       (snd (@GasMeter.estimateMax sampleTracker sampleDispatch
               (snd (@GasMeter.estimateMax sampleTracker sampleDispatch
                       sampleMeter [Fixed 1; MemoryAccess 0 1] true))
               [Fixed 1; MemoryAccess 2 1] true)).
Proof.
  split; [reflexivity |].
  apply (@largestMemoryAccess_monotone sampleTracker sampleDispatch
           sampleMeter sampleCalls 1%nat
           (snd (@GasMeter.estimateMax sampleTracker sampleDispatch sampleMeter
                   [Fixed 1; MemoryAccess 0 1] true))
           (snd (@GasMeter.estimateMax sampleTracker sampleDispatch
                   (snd (@GasMeter.estimateMax sampleTracker sampleDispatch
                           sampleMeter [Fixed 1; MemoryAccess 0 1] true))
                   [Fixed 1; MemoryAccess 2 1] true))
           [Fixed 1; MemoryAccess 2 1] true).
  - reflexivity.
  - reflexivity.
  - reflexivity.
Defined.

(** A store of one word at the known offset 64 on a fresh meter costs its
    fixed part plus the expansion from 0 to 96 bytes, three words, and
    leaves the mark at 96; a following item without memory access keeps it. *)
Example store_then_jumpdest :
  let store := [Fixed GasCosts.tier2Gas; MemoryAccess 0 1] in
  let jumpdest := [Fixed GasCosts.jumpdestGas] in
  let r1 := @GasMeter.estimateMax sampleTracker sampleDispatch
              sampleMeter store true in
  let r2 := @GasMeter.estimateMax sampleTracker sampleDispatch
              (snd r1) jumpdest true in
  fst r1 = mkGasConsumption (1 + (1 * 3 + 3 * 3 / 1024)) false /\
  GasMeter.largestMemoryAccess (snd r1) = 96 /\
  fst r2 = mkGasConsumption 1 false /\
  GasMeter.largestMemoryAccess (snd r2) = 96.
Proof. repeat split. Qed.

(** ** The order of cost values as a strict total order *)

Lemma GasConsumption_eta (a b : GasConsumption) :
  isInfinite a = isInfinite b -> value a = value b -> a = b.
Proof. destruct a, b; cbn; intros -> ->; reflexivity. Qed.

(** X1.  [operator<] is a strict order: no value is below itself, two values
    are never below each other, and the order is transitive. *)
Theorem lt_strict_order (a b c : GasConsumption) :
  lt a a = false /\
  (lt a b = true -> lt b a = false) /\
  (lt a b = true -> lt b c = true -> lt a c = true).
Proof.
  split; [apply lt_irrefl | split].
  - intros Hab.
    destruct (lt b a) eqn:Hba; [| reflexivity].
    pose proof (lt_trans a b a Hab Hba) as Haa.
    rewrite lt_irrefl in Haa. discriminate Haa.
  - apply lt_trans.
Qed.

Lemma lt_strict_order_witness :
  lt infinite (GasConsumption_unsigned 7 false) = false /\
  lt (GasConsumption_unsigned 3 false) infinite = true.
Proof.
  destruct (lt_strict_order (GasConsumption_unsigned 7 false) infinite
              (GasConsumption_unsigned 3 false)) as (_ & Hasym & _).
  destruct (lt_strict_order (GasConsumption_unsigned 3 false)
              (GasConsumption_unsigned 7 false) infinite) as (_ & _ & Htrans).
  split.
  - apply Hasym. reflexivity.
  - apply Htrans; reflexivity.
Defined.

(** X2.  The order is total on cost values: two values neither of which is
    below the other are the same value, flag and payload alike. *)
Theorem lt_connected (a b : GasConsumption) :
  (lt a b = false /\ lt b a = false) <-> a = b.
Proof.
  split.
  - intros [Hab Hba].
    destruct (lt_total a b Hab Hba) as [Hflag Hval].
    apply GasConsumption_eta; assumption.
  - intros <-. split; apply lt_irrefl.
Qed.

(** X3.  Among values whose payload is a 256-bit number, the default value 0
    is least, [GasConsumption(max, true)] is greatest, and exactly the finite
    values are below [infinite()]. *)
Theorem lt_bounds (g : GasConsumption) :
  wf g ->
  lt g GasConsumption_default = false /\
  lt (GasConsumption_u256 U256.max true) g = false /\
  lt g infinite = negb (isInfinite g).
Proof.
  intros [Hlo Hhi].
  assert (Emax : value (GasConsumption_u256 U256.max true) = U256.max)
    by reflexivity.
  rewrite !lt_unfold, Emax.
  change (value GasConsumption_default) with 0.
  change (value infinite) with 0.
  change (isInfinite GasConsumption_default) with false.
  change (isInfinite infinite) with true.
  change (isInfinite (GasConsumption_u256 U256.max true)) with true.
  assert (H0 : (value g <? 0) = false) by (apply Z.ltb_ge; exact Hlo).
  assert (H1 : (U256.max <? value g) = false).
  { apply Z.ltb_ge. unfold U256.max. lia. }
  rewrite H0, H1.
  destruct (isInfinite g); repeat split.
Qed.

Lemma lt_bounds_witness :
  lt (GasConsumption_unsigned 9 true) GasConsumption_default = false /\
  lt (GasConsumption_u256 U256.max true) (GasConsumption_unsigned 9 true)
    = false /\
  lt (GasConsumption_unsigned 9 true) infinite = false.
Proof.
  apply (lt_bounds (GasConsumption_unsigned 9 true)).
  vm_compute. split; [discriminate | reflexivity].
Defined.

(** X4.  The two constructors agree on every amount that fits an [unsigned]:
    which overload a call selects does not change the value built. *)
Theorem GasConsumption_overloads_agree (v : Z) (inf : bool) :
  Unsigned.in_range v ->
  GasConsumption_unsigned v inf = GasConsumption_u256 v inf /\
  value (GasConsumption_unsigned v inf) = v /\
  wf (GasConsumption_unsigned v inf).
Proof.
  intros Hv.
  assert (Hv' : U256.in_range v).
  { destruct Hv as [Hlo Hhi]. split; [exact Hlo |].
    eapply Z.lt_trans; [exact Hhi | reflexivity]. }
  rewrite GasConsumption_unsigned_in_range by exact Hv.
  rewrite GasConsumption_u256_in_range by exact Hv'.
  split; [reflexivity | split; [reflexivity | exact Hv']].
Qed.

Lemma GasConsumption_overloads_agree_witness :
  GasConsumption_unsigned 1250 false = GasConsumption_u256 1250 false /\
  value (GasConsumption_unsigned 1250 false) = 1250 /\
  wf (GasConsumption_unsigned 1250 false).
Proof.
  apply (GasConsumption_overloads_agree 1250 false).
  vm_compute. split; [discriminate | reflexivity].
Defined.

(** ** The cost table along the upgrade history *)

Section Repricing.
Context {M : Milestones}.

(** X5.  Along the upgrade history the costs of the external-code query, the
    balance query, the message call and the self-destruct never fall, and the
    costs of the storage load and of the exponent byte never rise. *)
Theorem versioned_costs_monotone (v v' : EVMVersion) :
  (m_version v <= m_version v')%nat ->
  GasCosts.extCodeGas v <= GasCosts.extCodeGas v' /\
  GasCosts.balanceGas v <= GasCosts.balanceGas v' /\
  GasCosts.callGas v <= GasCosts.callGas v' /\
  GasCosts.selfdestructGas v <= GasCosts.selfdestructGas v' /\
  GasCosts.sloadGas v' <= GasCosts.sloadGas v /\
  GasCosts.expByteGas v' <= GasCosts.expByteGas v.
Proof.
  intros Hle.
  unfold GasCosts.extCodeGas, GasCosts.balanceGas, GasCosts.callGas,
    GasCosts.selfdestructGas, GasCosts.sloadGas, GasCosts.expByteGas,
    EVMVersion_ge.
  destruct (Nat.leb_spec (m_version tangerineWhistle) (m_version v));
    destruct (Nat.leb_spec (m_version tangerineWhistle) (m_version v'));
    destruct (Nat.leb_spec (m_version spuriousDragon) (m_version v));
    destruct (Nat.leb_spec (m_version spuriousDragon) (m_version v'));
    repeat split; lia.
Qed.

(** X6.  When spuriousDragon is not before tangerineWhistle, the table has
    only three rows over all versions: the old costs, the repriced accesses
    with the old exponent byte, and the repriced accesses with the new one.
    The new exponent byte never comes with the old access costs. *)
Theorem versioned_rows (v : EVMVersion) :
  (m_version tangerineWhistle <= m_version spuriousDragon)%nat ->
  (EVMVersion_lt v tangerineWhistle /\
   GasCosts.versioned v = [20; 20; 10; 50; 40; 0]) \/
  ((m_version tangerineWhistle <= m_version v)%nat /\
   EVMVersion_lt v spuriousDragon /\
   GasCosts.versioned v = [45; 25; 10; 20; 45; 350]) \/
  ((m_version spuriousDragon <= m_version v)%nat /\
   GasCosts.versioned v = [45; 25; 4; 20; 45; 350]).
Proof.
  intros Hord.
  unfold GasCosts.versioned, GasCosts.extCodeGas, GasCosts.balanceGas,
    GasCosts.callGas, GasCosts.selfdestructGas, GasCosts.sloadGas,
    GasCosts.expByteGas, EVMVersion_ge, EVMVersion_lt.
  destruct (Nat.leb_spec (m_version tangerineWhistle) (m_version v)) as [Ht | Ht];
    destruct (Nat.leb_spec (m_version spuriousDragon) (m_version v)) as [Hs | Hs].
  - right; right. split; [exact Hs | reflexivity].
  - right; left. split; [exact Ht | split; [exact Hs | reflexivity]].
  - exfalso. lia.
  - left. split; [exact Ht | reflexivity].
Qed.
End Repricing.

Lemma versioned_costs_monotone_witness :
  @GasCosts.extCodeGas sampleMilestones (mkEVMVersion 0)
    <= @GasCosts.extCodeGas sampleMilestones (mkEVMVersion 2) /\
  @GasCosts.balanceGas sampleMilestones (mkEVMVersion 0)
    <= @GasCosts.balanceGas sampleMilestones (mkEVMVersion 2) /\
  @GasCosts.callGas sampleMilestones (mkEVMVersion 0)
    <= @GasCosts.callGas sampleMilestones (mkEVMVersion 2) /\
  @GasCosts.selfdestructGas sampleMilestones (mkEVMVersion 0)
    <= @GasCosts.selfdestructGas sampleMilestones (mkEVMVersion 2) /\
  @GasCosts.sloadGas sampleMilestones (mkEVMVersion 2)
    <= @GasCosts.sloadGas sampleMilestones (mkEVMVersion 0) /\
  @GasCosts.expByteGas sampleMilestones (mkEVMVersion 2)
    <= @GasCosts.expByteGas sampleMilestones (mkEVMVersion 0).
Proof.
  apply (@versioned_costs_monotone sampleMilestones
           (mkEVMVersion 0) (mkEVMVersion 2)).
  simpl. lia.
Defined.

Lemma versioned_rows_witness :
  (EVMVersion_lt (mkEVMVersion 1) (@tangerineWhistle sampleMilestones) /\
   @GasCosts.versioned sampleMilestones (mkEVMVersion 1)
     = [20; 20; 10; 50; 40; 0]) \/
  ((m_version (@tangerineWhistle sampleMilestones)
    <= m_version (mkEVMVersion 1))%nat /\
   EVMVersion_lt (mkEVMVersion 1) (@spuriousDragon sampleMilestones) /\
   @GasCosts.versioned sampleMilestones (mkEVMVersion 1)
     = [45; 25; 10; 20; 45; 350]) \/
  ((m_version (@spuriousDragon sampleMilestones)
    <= m_version (mkEVMVersion 1))%nat /\
   @GasCosts.versioned sampleMilestones (mkEVMVersion 1)
     = [45; 25; 4; 20; 45; 350]).
Proof.
  apply (@versioned_rows sampleMilestones (mkEVMVersion 1)).
  simpl. lia.
Defined.
